(** * Task Manager API: a shallow embedding of [app/main.py]

    The program is a FastAPI application over one SQLAlchemy table,
    [tasks].  The embedding has three layers, in the order of the source:

    - the data: the ORM class [Task] and the pydantic schemas
      [TaskCreate], [TaskUpdate] and [TaskResponse], one module each;
    - the handlers [get_tasks], [get_task], [create_task], [update_task]
      and [delete_task], as functions on the table (explicit state
      passing: a handler that commits returns the new table);
    - the routes, i.e. the handlers under their decorators: request-body
      validation in front of the handler and, where the decorator gives a
      [response_model], validation of the returned value behind it. *)

From stdpp Require Import base option list strings gmap.
From Stdlib Require Import ZArith Lia.

Local Open Scope Z_scope.

(** ** Values *)

(** A decoded JSON value, as a request body carries it and as a handler's
    dict literal holds it.  Numbers are integers: no schema of the program
    has a float field. *)
#[local] Set Warnings "-register-all".
Inductive json : Type :=
| JNull
| JBool (b : bool)
| JInt (n : Z)
| JStr (s : string)
| JArr (elems : list json)
| JObj (members : list (string * json)).

(** [datetime]: a point in time, as a count of microseconds. *)
Abbreviation datetime := Z (only parsing).

(** ** SQLAlchemy model (main.py, class Task)

    [id] is the primary key and cannot be NULL; the other four columns
    are declared without [nullable=False], so each may hold NULL
    ([None]). *)
Module Task.
Record t : Type := mk {
  id : Z;
  title : option string;
  description : option string;
  completed : option bool;
  created_at : option datetime
}.
End Task.

(** ** Pydantic schemas *)

Module TaskCreate.
Record t : Type := mk {
  title : string;
  description : option string
}.
End TaskCreate.

(** Every field of [TaskUpdate] is [Optional[...] = None].  The handler
    reads the model with [exclude_unset=True], so a field the request
    left out ([None] here) differs from a field the request set, possibly
    to null ([Some None]). *)
Module TaskUpdate.
Record t : Type := mk {
  title : option (option string);
  description : option (option string);
  completed : option (option bool)
}.
End TaskUpdate.

Module TaskResponse.
Record t : Type := mk {
  id : Z;
  title : string;
  description : option string;
  completed : bool;
  created_at : datetime
}.
End TaskResponse.

(** ** Storage

    The session sees the table as its rows in scan order.  An INSERT
    appends, an UPDATE rewrites rows in place and a DELETE drops rows:
    the order of the remaining rows is the order of their insertion. *)
Abbreviation Session := (list Task.t) (only parsing).

Definition ids (db : Session) : list Z := Task.id <$> db.

(** [db.query(Task).filter(Task.id == task_id)] *)
Definition filter_by_id (task_id : Z) (db : Session) : list Task.t :=
  filter (λ row, Task.id row = task_id) db.

(** [.first()] *)
Definition first (rows : list Task.t) : option Task.t := head rows.

(** [.offset(skip)]: a negative OFFSET skips nothing. *)
Definition offset (skip : Z) (rows : list Task.t) : list Task.t :=
  drop (Z.to_nat skip) rows.

(** [.limit(limit)]: a negative LIMIT is no limit (SQLite, the default
    engine of [DATABASE_URL]). *)
Definition limit (n : Z) (rows : list Task.t) : list Task.t :=
  if decide (n < 0) then rows else take (Z.to_nat n) rows.

(** What a handler returns: an ORM object or a dict literal. *)
Inductive result : Type :=
| RetTask (row : Task.t)
| RetDict (d : gmap string json).

(** [{"error": "Task not found"}] *)
Definition not_found : gmap string json :=
  {[ "error"%string := JStr "Task not found" ]}.

(** [{"message": "Task deleted successfully", "id": task_id}] *)
Definition deleted (task_id : Z) : gmap string json :=
  <[ "id"%string := JInt task_id ]>
    {[ "message"%string := JStr "Task deleted successfully" ]}.

(** ** Handlers (main.py, "Routes") *)

(** [get_tasks]: [db.query(Task).offset(skip).limit(limit).all()] *)
Definition get_tasks (skip lim : Z) (db : Session) : list Task.t :=
  limit lim (offset skip db).

(** [get_task]: a [Task] object is truthy, so [not task] holds exactly
    for [None]. *)
Definition get_task (task_id : Z) (db : Session) : result :=
  match first (filter_by_id task_id db) with
  | None => RetDict not_found
  | Some task => RetTask task
  end.

(** [task.dict(exclude_unset=True).items()]: the fields the request set,
    in the order of their declaration. *)
Inductive attr : Type :=
| AttrTitle (v : option string)
| AttrDescription (v : option string)
| AttrCompleted (v : option bool).

Definition dict_exclude_unset (task : TaskUpdate.t) : list attr :=
  from_option (λ v, [AttrTitle v]) [] (TaskUpdate.title task) ++
  from_option (λ v, [AttrDescription v]) [] (TaskUpdate.description task) ++
  from_option (λ v, [AttrCompleted v]) [] (TaskUpdate.completed task).

(** [setattr(db_task, field, value)] *)
Definition setattr (db_task : Task.t) (a : attr) : Task.t :=
  match a with
  | AttrTitle v =>
      Task.mk (Task.id db_task) v (Task.description db_task)
        (Task.completed db_task) (Task.created_at db_task)
  | AttrDescription v =>
      Task.mk (Task.id db_task) (Task.title db_task) v
        (Task.completed db_task) (Task.created_at db_task)
  | AttrCompleted v =>
      Task.mk (Task.id db_task) (Task.title db_task)
        (Task.description db_task) v (Task.created_at db_task)
  end.

(** The UPDATE a commit flushes for a changed object:
    [UPDATE tasks SET ... WHERE tasks.id = ?]. *)
Definition flush_update (db_task : Task.t) (db : Session) : Session :=
  (λ row, if decide (Task.id row = Task.id db_task) then db_task else row)
    <$> db.

(** The DELETE a commit flushes: [DELETE FROM tasks WHERE tasks.id = ?]. *)
Definition flush_delete (db_task : Task.t) (db : Session) : Session :=
  filter (λ row, Task.id row ≠ Task.id db_task) db.

(** [update_task]; [db.refresh(db_task)] reads back the row just
    written. *)
Definition update_task (task_id : Z) (task : TaskUpdate.t) (db : Session)
  : result * Session :=
  match first (filter_by_id task_id db) with
  | None => (RetDict not_found, db)
  | Some db_task =>
      let db_task' := foldl setattr db_task (dict_exclude_unset task) in
      (RetTask db_task', flush_update db_task' db)
  end.

(** [delete_task] *)
Definition delete_task (task_id : Z) (db : Session)
  : gmap string json * Session :=
  match first (filter_by_id task_id db) with
  | None => (not_found, db)
  | Some db_task => (deleted task_id, flush_delete db_task db)
  end.

Section Create.

(** The key the engine gives an inserted row.  The program leaves the
    choice to the engine; all it states is [primary_key=True]: the key
    is one no stored row has, which is what the properties below assume
    of [next_id] where they need it. *)
Variable next_id : Session → Z.

(** [create_task]: the [Task] built from [task.dict()] has [title] and
    [description] set; the INSERT fills [id], and the column defaults
    fill [completed] ([False]) and [created_at] ([datetime.utcnow()],
    read as [now]); [db.refresh(db_task)] loads them into the returned
    object. *)
Definition create_task (now : datetime) (task : TaskCreate.t) (db : Session)
  : Task.t * Session :=
  let db_task :=
    Task.mk (next_id db) (Some (TaskCreate.title task))
      (TaskCreate.description task) (Some false) (Some now) in
  (db_task, db ++ [db_task]).

End Create.

(** ** Validation

    [validate_TaskCreate]: what FastAPI does with the body of
    [task: TaskCreate] before the handler runs.  [title] is required and
    a string; [description] may be missing or null and is otherwise a
    string; a string field takes no value of another type; keys the
    schema does not declare are dropped.  The errors are pairs of the
    field and pydantic's error type. *)
Definition field_error (required : bool) (field : string) (v : option json)
  : list (string * string) :=
  match v with
  | None => if required then [(field, "missing"%string)] else []
  | Some (JStr _) => []
  | Some JNull => if required then [(field, "string_type"%string)] else []
  | Some _ => [(field, "string_type"%string)]
  end.

Definition validate_TaskCreate (body : gmap string json)
  : list (string * string) + TaskCreate.t :=
  match body !! "title"%string, body !! "description"%string with
  | Some (JStr title), None
  | Some (JStr title), Some JNull => inr (TaskCreate.mk title None)
  | Some (JStr title), Some (JStr description) =>
      inr (TaskCreate.mk title (Some description))
  | title, description =>
      inl (field_error true "title" title ++
           field_error false "description" description)
  end.

(** [TaskResponse] read from an ORM object ([from_attributes = True]):
    [title: str], [completed: bool] and [created_at: datetime] do not
    take [None]; [description: Optional[str]] does. *)
Definition from_attributes (row : Task.t) : option TaskResponse.t :=
  title ← Task.title row;
  completed ← Task.completed row;
  created_at ← Task.created_at row;
  Some (TaskResponse.mk (Task.id row) title (Task.description row)
          completed created_at).

Definition as_int (v : json) : option Z :=
  match v with JInt n => Some n | _ => None end.
Definition as_str (v : json) : option string :=
  match v with JStr s => Some s | _ => None end.
Definition as_bool (v : json) : option bool :=
  match v with JBool b => Some b | _ => None end.
Definition as_optional_str (v : json) : option (option string) :=
  match v with JNull => Some None | JStr s => Some (Some s) | _ => None end.

(** [TaskResponse] read from a dict.  The five fields have no default,
    so each key has to be there.  A value is taken in the type of its
    field; pydantic would also convert some values of other types, which
    is left out here: the one dict that meets a response model in this
    program is [not_found], which has none of the keys. *)
Definition from_dict (d : gmap string json) : option TaskResponse.t :=
  id ← d !! "id"%string ≫= as_int;
  title ← d !! "title"%string ≫= as_str;
  description ← d !! "description"%string ≫= as_optional_str;
  completed ← d !! "completed"%string ≫= as_bool;
  created_at ← d !! "created_at"%string ≫= as_int;
  Some (TaskResponse.mk id title description completed created_at).

Definition validate_TaskResponse (r : result) : option TaskResponse.t :=
  match r with
  | RetTask row => from_attributes row
  | RetDict d => from_dict d
  end.

(** ** Routes: the handlers under their decorators *)

Inductive Content : Type :=
| ContentTask (task : TaskResponse.t)
| ContentTasks (tasks : list TaskResponse.t)
| ContentDict (d : gmap string json)
| ContentDetail (errors : list (string * string))
| ContentText (s : string).

Record Response : Type := mkResponse {
  status_code : Z;
  content : Content
}.

(** A returned value the response model rejects raises in the framework,
    after the handler has returned: the client gets a 500. *)
Definition internal_server_error : Response :=
  mkResponse 500 (ContentText "Internal Server Error").

(** [response_model=TaskResponse] *)
Definition serialize_response (r : result) : Response :=
  match validate_TaskResponse r with
  | Some task => mkResponse 200 (ContentTask task)
  | None => internal_server_error
  end.

(** [response_model=List[TaskResponse]] *)
Definition serialize_list (rows : list Task.t) : Response :=
  match mapM from_attributes rows with
  | Some tasks => mkResponse 200 (ContentTasks tasks)
  | None => internal_server_error
  end.

Module Route.

(** [GET /tasks]: [skip: int = 0, limit: int = 10] *)
Definition get_tasks (skip lim : option Z) (db : Session) : Response :=
  serialize_list (get_tasks (default 0 skip) (default 10 lim) db).

(** [GET /tasks/{task_id}] *)
Definition get_task (task_id : Z) (db : Session) : Response :=
  serialize_response (get_task task_id db).

(** [PUT /tasks/{task_id}], on a body that validated as [task]. *)
Definition update_task (task_id : Z) (task : TaskUpdate.t) (db : Session)
  : Response * Session :=
  let '(r, db') := update_task task_id task db in (serialize_response r, db').

(** [DELETE /tasks/{task_id}]: no response model, the dict is sent as it
    is. *)
Definition delete_task (task_id : Z) (db : Session) : Response * Session :=
  let '(d, db') := delete_task task_id db in
  (mkResponse 200 (ContentDict d), db').

Section Create.
Variable next_id : Session → Z.

(** [POST /tasks] *)
Definition create_task (now : datetime) (body : gmap string json)
  (db : Session) : Response * Session :=
  match validate_TaskCreate body with
  | inl errors => (mkResponse 422 (ContentDetail errors), db)
  | inr task =>
      let '(db_task, db') := create_task next_id now task db in
      (serialize_response (RetTask db_task), db')
  end.

End Create.
End Route.

(** ** Reachable tables *)

(** The requests that write. *)
Inductive request : Type :=
| Post (now : datetime) (task : TaskCreate.t)
| Put (task_id : Z) (task : TaskUpdate.t)
| Delete (task_id : Z).

Section Run.
Variable next_id : Session → Z.

Definition step (db : Session) (r : request) : Session :=
  match r with
  | Post now task => (create_task next_id now task db).2
  | Put task_id task => (update_task task_id task db).2
  | Delete task_id => (delete_task task_id db).2
  end.

(** The table after a run of requests, from the empty table
    [Base.metadata.create_all] makes. *)
Definition run (rs : list request) : Session := foldl step [] rs.

Definition reachable (db : Session) : Prop := ∃ rs, run rs = db.

End Run.

(** SQLite's key for a new row of an [INTEGER PRIMARY KEY] table: one
    more than the largest key in the table, 1 in an empty table. *)
Definition sqlite_rowid (db : Session) : Z := 1 + foldr Z.max 0 (ids db).

(** ** The example of the specification

    [POST /tasks] with [{"title": "Buy milk"}] on the empty table, at a
    time [1700] of the clock. *)
Definition buy_milk : gmap string json :=
  {[ "title"%string := JStr "Buy milk" ]}.

Definition buy_milk_row : Task.t :=
  Task.mk 1 (Some "Buy milk"%string) None (Some false) (Some 1700).

Definition buy_milk_response : TaskResponse.t :=
  TaskResponse.mk 1 "Buy milk" None false 1700.

(** [PUT] bodies: [{"completed": true}] and [{"title": null}].  Null is
    a value of an [Optional[str]] field, and a field given as null is a
    field the request set. *)
Definition set_completed : TaskUpdate.t :=
  TaskUpdate.mk None None (Some (Some true)).

Definition null_title : TaskUpdate.t :=
  TaskUpdate.mk (Some None) None None.

(** A creation and then [PUT /tasks/1] with [{"title": null}]. *)
Definition milk_then_null : list request :=
  [Post 1700 (TaskCreate.mk "Buy milk" None); Put 1 null_title].

(** Three creations, on SQLite. *)
Definition three_tasks : Session :=
  run sqlite_rowid
    [Post 1700 (TaskCreate.mk "Buy milk" None);
     Post 1701 (TaskCreate.mk "Walk the dog" (Some "twice"%string));
     Post 1702 (TaskCreate.mk "" None)].

(** ** Database configuration (main.py, lines 10 to 17) *)

(** [needle in hay] on strings: [hay] starts with [needle], or some
    later part of it does. *)
Fixpoint startswith (needle hay : string) : bool :=
  match needle, hay with
  | EmptyString, _ => true
  | String _ _, EmptyString => false
  | String a needle', String b hay' =>
      if Ascii.eqb a b then startswith needle' hay' else false
  end.

Fixpoint contains (needle hay : string) : bool :=
  startswith needle hay ||
  match hay with
  | EmptyString => false
  | String _ hay' => contains needle hay'
  end.

(** [os.getenv("DATABASE_URL", "sqlite:///./test.db")]: the default
    stands in for a variable that is not set, not for one set to the
    empty string. *)
Definition DATABASE_URL (environ : gmap string string) : string :=
  default "sqlite:///./test.db"%string (environ !! "DATABASE_URL"%string).

(** [{"check_same_thread": False} if "sqlite" in DATABASE_URL else {}] *)
Definition connect_args (url : string) : gmap string json :=
  if contains "sqlite" url
  then {[ "check_same_thread"%string := JBool false ]}
  else ∅.

(** ** Requests that set nothing to null *)

(** A [PUT] body that gives neither [title] nor [completed] as null;
    [description] may be null. *)
Definition null_free (task : TaskUpdate.t) : Prop :=
  TaskUpdate.title task ≠ Some None ∧ TaskUpdate.completed task ≠ Some None.

Definition request_null_free (r : request) : Prop :=
  match r with
  | Put _ task => null_free task
  | Post _ _ | Delete _ => True
  end.

(** [PUT] with the body [{}]. *)
Definition empty_update : TaskUpdate.t := TaskUpdate.mk None None None.

(** * Properties *)

(** ** Looking a row up by its key *)

Lemma filter_by_id_cons task_id row (db : Session) :
  filter_by_id task_id (row :: db) =
  if decide (Task.id row = task_id) then row :: filter_by_id task_id db
  else filter_by_id task_id db.
Proof. unfold filter_by_id. by rewrite filter_cons. Qed.

Lemma filter_by_id_absent task_id (db : Session) :
  task_id ∉ ids db → filter_by_id task_id db = [].
Proof.
  induction db as [|row db IH]; [done|].
  intros [Hne Hnin]%not_elem_of_cons.
  rewrite filter_by_id_cons. case_decide; [congruence | by apply IH].
Qed.

Lemma first_absent task_id (db : Session) :
  task_id ∉ ids db → first (filter_by_id task_id db) = None.
Proof. intros Habsent. by rewrite filter_by_id_absent. Qed.

Lemma first_found task_id (db : Session) row :
  first (filter_by_id task_id db) = Some row →
  row ∈ db ∧ Task.id row = task_id.
Proof.
  unfold first. intros Hhd%head_Some_elem_of.
  by apply list_elem_of_filter in Hhd as [? ?].
Qed.

(** The dict [not_found] does not validate as a [TaskResponse]. *)
Lemma not_found_invalid : validate_TaskResponse (RetDict not_found) = None.
Proof. reflexivity. Qed.

(** ** GET /tasks/{task_id} on a key that is not stored *)

(** C1.  For a key no stored row has, the handler [get_task] returns
    the dict [{"error": "Task not found"}]; the route, whose decorator
    declares [response_model=TaskResponse], does not send it: the dict
    fails the response model and the request ends in a 500 with the
    text of an internal error, not in a 200 with the dict.  The sibling
    route [DELETE /tasks/{task_id}], declared without a response model,
    does send its dict with a 200. *)
Theorem get_task_absent_is_500 task_id (db : Session) :
  task_id ∉ ids db →
  get_task task_id db = RetDict not_found ∧
  Route.get_task task_id db = internal_server_error ∧
  status_code (Route.get_task task_id db) ≠ 200 ∧
  Route.delete_task task_id db = (mkResponse 200 (ContentDict not_found), db).
Proof.
  intros Habsent.
  assert (get_task task_id db = RetDict not_found) as Hget.
  { unfold get_task. by rewrite first_absent. }
  unfold Route.get_task, Route.delete_task, delete_task.
  rewrite Hget, first_absent by done.
  unfold serialize_response. rewrite not_found_invalid. by repeat split.
Qed.

Lemma get_task_absent_is_500_witness :
  (999999 ∉ ids []) ∧ Route.get_task 999999 [] = internal_server_error.
Proof.
  split; [apply not_elem_of_nil|].
  apply (get_task_absent_is_500 999999 []). apply not_elem_of_nil.
Defined.

(** ** PUT and DELETE on a key that is not stored *)

(** C5.  For a key no stored row has, [update_task] and [delete_task]
    return the not-found dict and the table is the one they were given:
    no row is added, changed or removed.  The route [DELETE] sends the
    dict with a 200; the route [PUT], under its response model, answers
    500 and does not send it.  Both routes leave the table as it was. *)
Theorem update_delete_absent task_id task (db : Session) :
  task_id ∉ ids db →
  update_task task_id task db = (RetDict not_found, db) ∧
  delete_task task_id db = (not_found, db) ∧
  Route.update_task task_id task db = (internal_server_error, db) ∧
  Route.delete_task task_id db = (mkResponse 200 (ContentDict not_found), db).
Proof.
  intros Habsent.
  unfold Route.update_task, Route.delete_task, update_task, delete_task.
  rewrite first_absent by done.
  unfold serialize_response. by rewrite not_found_invalid.
Qed.

Lemma update_delete_absent_witness :
  (2 ∉ ids [buy_milk_row]) ∧
  update_task 2 set_completed [buy_milk_row] = (RetDict not_found, [buy_milk_row]) ∧
  Route.update_task 2 set_completed [buy_milk_row] =
    (internal_server_error, [buy_milk_row]).
Proof.
  assert (2 ∉ ids [buy_milk_row]) as Habsent.
  { intros [Heq|Hin]%elem_of_cons; [discriminate | by apply elem_of_nil in Hin]. }
  split; [exact Habsent|].
  destruct (update_delete_absent 2 set_completed _ Habsent)
    as (Hupdate & _ & Hroute & _).
  by split.
Defined.

(** ** PUT /tasks/{task_id} on a stored key *)

(** The object after the [setattr] loop: a field the request set has
    the request's value, a field it left out keeps its own. *)
Lemma setattr_loop task row :
  foldl setattr row (dict_exclude_unset task) =
  Task.mk (Task.id row)
    (default (Task.title row) (TaskUpdate.title task))
    (default (Task.description row) (TaskUpdate.description task))
    (default (Task.completed row) (TaskUpdate.completed task))
    (Task.created_at row).
Proof. by destruct task as [[?|] [?|] [?|]], row. Qed.

Lemma flush_update_first row' task_id (db : Session) row :
  Task.id row' = task_id →
  first (filter_by_id task_id db) = Some row →
  first (filter_by_id task_id (flush_update row' db)) = Some row'.
Proof.
  intros Hid. induction db as [|r db IH]; [done|].
  unfold flush_update. rewrite fmap_cons, !filter_by_id_cons.
  repeat case_decide; try congruence; [done | apply IH].
Qed.

Lemma flush_update_other row' other (db : Session) :
  Task.id row' ≠ other →
  filter_by_id other (flush_update row' db) = filter_by_id other db.
Proof.
  intros Hne. induction db as [|r db IH]; [done|].
  unfold flush_update. rewrite fmap_cons, !filter_by_id_cons.
  fold (flush_update row' db). rewrite IH.
  repeat case_decide; congruence.
Qed.

(** C3.  On a stored row, [update_task] writes exactly the fields the
    request set and keeps every other field, [id] and [created_at]
    included; the row read back by its key is the one returned, and the
    rows of other keys are as before.  With only [{"completed": true}],
    [completed] becomes true and [title] and [description] stay. *)
Theorem update_task_fields task_id (db : Session) row :
  first (filter_by_id task_id db) = Some row →
  (∀ task,
     let row' :=
       Task.mk (Task.id row)
         (default (Task.title row) (TaskUpdate.title task))
         (default (Task.description row) (TaskUpdate.description task))
         (default (Task.completed row) (TaskUpdate.completed task))
         (Task.created_at row) in
     ∃ db',
       update_task task_id task db = (RetTask row', db') ∧
       get_task task_id db' = RetTask row' ∧
       length db' = length db ∧
       ∀ other, other ≠ task_id →
         filter_by_id other db' = filter_by_id other db) ∧
  (∃ db',
     update_task task_id set_completed db =
       (RetTask (Task.mk (Task.id row) (Task.title row) (Task.description row)
                   (Some true) (Task.created_at row)), db')).
Proof.
  intros Hrow. pose proof (first_found _ _ _ Hrow) as [_ Hid].
  split.
  - intros task row'. exists (flush_update row' db).
    unfold update_task, get_task. rewrite Hrow. cbv zeta.
    rewrite setattr_loop. fold row'.
    rewrite (flush_update_first row' task_id db row Hid Hrow).
    repeat split.
    + unfold flush_update. by rewrite length_fmap.
    + intros other Hother. apply flush_update_other.
      subst row'. simpl. congruence.
  - eexists. unfold update_task. rewrite Hrow. cbv zeta.
    by rewrite setattr_loop.
Qed.

Lemma update_task_fields_witness :
  first (filter_by_id 1 [buy_milk_row]) = Some buy_milk_row ∧
  ∃ db',
    update_task 1 set_completed [buy_milk_row] =
      (RetTask (Task.mk 1 (Some "Buy milk"%string) None (Some true) (Some 1700)),
       db').
Proof.
  split; [reflexivity|].
  exact (proj2 (update_task_fields 1 [buy_milk_row] buy_milk_row eq_refl)).
Defined.

(** ** GET /tasks *)

Lemma get_tasks_take_drop (skip lim : Z) (db : Session) :
  0 ≤ lim → get_tasks skip lim db = take (Z.to_nat lim) (drop (Z.to_nat skip) db).
Proof.
  intros Hlim. unfold get_tasks, limit, offset. case_decide; [lia | done].
Qed.

(** C6.  For [skip] and [limit] that are not negative, [get_tasks]
    returns the rows that follow the first [skip] rows of the table, up
    to [limit] of them: the table is some rows, then the page, then the
    rest, with [skip] rows in front (all rows, when the table has fewer)
    and a page of [limit] rows (what is left, when fewer are left).  The
    route hands a given [skip] and a given [limit] to the handler and
    reads an omitted [skip] as 0 and an omitted [limit] as 10, each on
    its own.  After three creations on the empty table, [skip=0,
    limit=10] gives the three created rows in the order of their
    creation, and the route sends them with a 200.  When every row of
    the page validates as a task, the route answers 200 with the tasks
    of the page, at most [limit] of them; when a row of the page does
    not, it answers 500: after a creation and a [PUT] that gives [title]
    as null, [GET /tasks] with [skip=0, limit=10] is a 500, not the
    page. *)
Theorem get_tasks_page :
  (∀ (skip lim : Z) (db : Session), 0 ≤ skip → 0 ≤ lim →
     Z.of_nat (length (get_tasks skip lim db)) ≤ lim ∧
     ∃ before after,
       db = before ++ get_tasks skip lim db ++ after ∧
       length before = (Z.to_nat skip `min` length db)%nat ∧
       length (get_tasks skip lim db) =
         (Z.to_nat lim `min` (length db - Z.to_nat skip))%nat) ∧
  (∀ (skip lim : Z) (db : Session),
     Route.get_tasks (Some skip) (Some lim) db =
       serialize_list (get_tasks skip lim db) ∧
     Route.get_tasks (Some skip) None db =
       serialize_list (get_tasks skip 10 db) ∧
     Route.get_tasks None (Some lim) db =
       serialize_list (get_tasks 0 lim db) ∧
     Route.get_tasks None None db = serialize_list (get_tasks 0 10 db)) ∧
  (∀ next_id now1 task1 now2 task2 now3 task3,
     let row1 := (create_task next_id now1 task1 []).1 in
     let db1 := (create_task next_id now1 task1 []).2 in
     let row2 := (create_task next_id now2 task2 db1).1 in
     let db2 := (create_task next_id now2 task2 db1).2 in
     let row3 := (create_task next_id now3 task3 db2).1 in
     let db3 := (create_task next_id now3 task3 db2).2 in
     get_tasks 0 10 db3 = [row1; row2; row3] ∧
     Route.get_tasks (Some 0) (Some 10) db3 =
       mkResponse 200 (ContentTasks
         [TaskResponse.mk (Task.id row1) (TaskCreate.title task1)
            (TaskCreate.description task1) false now1;
          TaskResponse.mk (Task.id row2) (TaskCreate.title task2)
            (TaskCreate.description task2) false now2;
          TaskResponse.mk (Task.id row3) (TaskCreate.title task3)
            (TaskCreate.description task3) false now3])) ∧
  (∀ (skip lim : Z) (db : Session), 0 ≤ skip → 0 ≤ lim →
     Forall (is_Some ∘ from_attributes) (get_tasks skip lim db) →
     ∃ tasks,
       Route.get_tasks (Some skip) (Some lim) db =
         mkResponse 200 (ContentTasks tasks) ∧
       Forall2 (λ row task, from_attributes row = Some task)
         (get_tasks skip lim db) tasks ∧
       Z.of_nat (length tasks) ≤ lim) ∧
  (∀ (skip lim : Z) (db : Session),
     Exists (λ row, from_attributes row = None) (get_tasks skip lim db) →
     Route.get_tasks (Some skip) (Some lim) db = internal_server_error) ∧
  get_tasks 0 10 (run sqlite_rowid milk_then_null) =
    [Task.mk 1 None None (Some false) (Some 1700)] ∧
  Route.get_tasks (Some 0) (Some 10) (run sqlite_rowid milk_then_null) =
    internal_server_error.
Proof.
  assert (∀ (skip lim : Z) (db : Session), 0 ≤ skip → 0 ≤ lim →
            Z.of_nat (length (get_tasks skip lim db)) ≤ lim) as Hbound.
  { intros skip lim db Hskip Hlim. rewrite get_tasks_take_drop by done.
    rewrite length_take. lia. }
  split_and!.
  - intros skip lim db Hskip Hlim. split; [by apply Hbound|].
    rewrite get_tasks_take_drop by done.
    set (s := Z.to_nat skip). set (l := Z.to_nat lim).
    exists (take s db), (drop l (drop s db)).
    rewrite take_drop, take_drop, !length_take, length_drop. done.
  - done.
  - done.
  - intros skip lim db Hskip Hlim Hvalid.
    unfold Route.get_tasks, serialize_list. simpl.
    destruct (mapM_is_Some_2 _ _ Hvalid) as [tasks Htasks].
    exists tasks. rewrite Htasks. split; [done|].
    apply mapM_Some_1 in Htasks. split; [done|].
    rewrite <- (Forall2_length _ _ _ Htasks). by apply Hbound.
  - intros skip lim db Hinvalid.
    unfold Route.get_tasks, serialize_list. simpl.
    by rewrite (mapM_None_2 _ _ Hinvalid).
  - reflexivity.
  - reflexivity.
Qed.

Lemma get_tasks_page_witness :
  0 ≤ 1 ∧ 0 ≤ 1 ∧ Z.of_nat (length (get_tasks 1 1 three_tasks)) ≤ 1.
Proof.
  split; [lia|]. split; [lia|].
  apply (proj1 get_tasks_page 1 1 three_tasks); lia.
Defined.

(** ** POST /tasks *)

Lemma sqlite_rowid_fresh (db : Session) : sqlite_rowid db ∉ ids db.
Proof.
  unfold sqlite_rowid.
  assert (∀ (l : list Z) x, x ∈ l → x ≤ foldr Z.max 0 l) as Hmax.
  { induction l as [|y l IH]; intros x Hx; [by apply elem_of_nil in Hx|].
    apply elem_of_cons in Hx as [->|Hx]; simpl; [lia|].
    specialize (IH x Hx). lia. }
  intros Hin%Hmax. lia.
Qed.

Lemma NoDup_ids_snoc row (db : Session) :
  Task.id row ∉ ids db → NoDup (ids db) → NoDup (ids (db ++ [row])).
Proof.
  intros Hfresh Hnodup. unfold ids. rewrite fmap_app. apply NoDup_app.
  split; [done|]. split; [|apply NoDup_singleton].
  by intros x Hx ->%list_elem_of_singleton.
Qed.

Lemma get_task_appended row (db : Session) :
  Task.id row ∉ ids db → get_task (Task.id row) (db ++ [row]) = RetTask row.
Proof.
  intros Hfresh. unfold get_task, filter_by_id.
  rewrite filter_app. fold (filter_by_id (Task.id row) db).
  rewrite filter_by_id_absent by done.
  rewrite filter_cons. by case_decide.
Qed.


Section Fresh.
Variable next_id : Session → Z.
Hypothesis next_id_fresh : ∀ db : Session, next_id db ∉ ids db.

(** C7.  For a body whose [title] is a string and whose [description]
    is a string, is null or is not given, the route creates one row and
    answers 200 with it: the row's key is one no stored row had, so the
    keys stay distinct; its [created_at] is the time of the clock; the
    table is the old one with the row at its end; [completed] is false;
    and [description] is null when the body gave none. *)
Theorem create_task_record now body title (db : Session) :
  body !! "title"%string = Some (JStr title) →
  body !! "description"%string = None ∨
    body !! "description"%string = Some JNull ∨
    (∃ d, body !! "description"%string = Some (JStr d)) →
  let description := (body !! "description"%string) ≫= as_str in
  let id := next_id db in
  Route.create_task next_id now body db =
    (mkResponse 200
       (ContentTask (TaskResponse.mk id title description false now)),
     db ++ [Task.mk id (Some title) description (Some false) (Some now)]) ∧
  (id ∉ ids db) ∧
  (NoDup (ids db) →
   NoDup (ids (db ++ [Task.mk id (Some title) description (Some false)
                        (Some now)]))) ∧
  (body !! "description"%string = None → description = None).
Proof.
  intros Htitle Hdesc description id.
  split; [|split; [apply next_id_fresh|split]].
  - unfold Route.create_task, validate_TaskCreate. subst description.
    rewrite Htitle. by destruct Hdesc as [->|[->|[d ->]]].
  - apply NoDup_ids_snoc. apply next_id_fresh.
  - subst description. by intros ->.
Qed.

(** C2.  For every body that validates, [POST /tasks] answers 200 with
    a task, and [GET /tasks/{id}] for the [id] of that task, on the
    table the creation left, answers 200 with the same task: every field
    ([id], [title], [description], [completed], [created_at]) has the
    value the creation returned.  The handlers agree: [get_task] on the
    key of the row [create_task] returned gives that row. *)
Theorem create_then_get now (db : Session) :
  (∀ body task, validate_TaskCreate body = inr task →
     ∃ created db',
       Route.create_task next_id now body db =
         (mkResponse 200 (ContentTask created), db') ∧
       TaskResponse.title created = TaskCreate.title task ∧
       TaskResponse.description created = TaskCreate.description task ∧
       Route.get_task (TaskResponse.id created) db' =
         mkResponse 200 (ContentTask created)) ∧
  (∀ task,
     get_task (Task.id (create_task next_id now task db).1)
       (create_task next_id now task db).2 =
     RetTask (create_task next_id now task db).1).
Proof.
  assert (∀ row, Task.id row = next_id db →
            get_task (next_id db) (db ++ [row]) = RetTask row) as Hget.
  { intros row Hid. rewrite <- Hid. apply get_task_appended.
    rewrite Hid. apply next_id_fresh. }
  split.
  - intros body task Hvalid. unfold Route.create_task, create_task.
    rewrite Hvalid. do 2 eexists. split_and!; try reflexivity.
    unfold Route.get_task. simpl TaskResponse.id. by rewrite Hget.
  - intros task. by apply Hget.
Qed.

End Fresh.

Lemma buy_milk_created :
  Route.create_task sqlite_rowid 1700 buy_milk [] =
    (mkResponse 200 (ContentTask buy_milk_response), [buy_milk_row]).
Proof. reflexivity. Qed.

Lemma create_task_record_witness :
  Route.create_task sqlite_rowid 1700 buy_milk [] =
    (mkResponse 200 (ContentTask buy_milk_response), [buy_milk_row]).
Proof.
  refine (proj1 (create_task_record sqlite_rowid sqlite_rowid_fresh 1700
                   buy_milk "Buy milk" [] _ _)).
  - reflexivity.
  - left. reflexivity.
Defined.

Lemma create_then_get_witness :
  ∃ created db',
    Route.create_task sqlite_rowid 1700 buy_milk [] =
      (mkResponse 200 (ContentTask created), db') ∧
    Route.get_task (TaskResponse.id created) db' =
      mkResponse 200 (ContentTask created).
Proof.
  destruct (proj1 (create_then_get sqlite_rowid sqlite_rowid_fresh 1700 [])
              buy_milk (TaskCreate.mk "Buy milk" None) eq_refl)
    as (created & db' & Hcreate & _ & _ & Hget).
  by exists created, db'.
Defined.

(** ** DELETE /tasks/{task_id} on a stored key *)

Lemma flush_delete_absent row (db : Session) :
  Task.id row ∉ ids db → flush_delete row db = db.
Proof.
  induction db as [|r db IH]; [done|].
  intros [Hne Hnin]%not_elem_of_cons.
  unfold flush_delete. rewrite filter_cons.
  fold (flush_delete row db). rewrite IH by done.
  case_decide; [done | congruence].
Qed.

Lemma NoDup_ids_split (before after : Session) row :
  NoDup (ids (before ++ row :: after)) →
  (Task.id row ∉ ids before) ∧ (Task.id row ∉ ids after).
Proof.
  unfold ids. rewrite fmap_app, fmap_cons.
  intros (_ & Hdisjoint & [Hafter _]%NoDup_cons)%NoDup_app.
  split; [|done]. intros Hin. apply (Hdisjoint _ Hin). by left.
Qed.

(** C8.  With distinct keys in the table, deleting a stored row by its
    key removes that row and nothing else: the table was some rows, the
    row, and more rows, and it becomes the same rows without the row, in
    the same order.  The route answers 200 with the dict of [message]
    and [id], where [id] is the key that was given.  Fetching the key
    afterwards: the handler [get_task] returns the not-found dict, and
    the route [GET /tasks/{task_id}], under its response model, answers
    500 and does not send it. *)
Theorem delete_task_removes task_id (db : Session) row :
  NoDup (ids db) → row ∈ db → Task.id row = task_id →
  ∃ before after,
    db = before ++ row :: after ∧
    delete_task task_id db = (deleted task_id, before ++ after) ∧
    Route.delete_task task_id db =
      (mkResponse 200 (ContentDict (deleted task_id)), before ++ after) ∧
    deleted task_id !! "id"%string = Some (JInt task_id) ∧
    deleted task_id !! "message"%string =
      Some (JStr "Task deleted successfully") ∧
    dom (deleted task_id) = ({[ "message"%string; "id"%string ]} : gset string) ∧
    get_task task_id (before ++ after) = RetDict not_found ∧
    Route.get_task task_id (before ++ after) = internal_server_error.
Proof.
  intros Hnodup Hin Hid.
  destruct (list_elem_of_split _ _ Hin) as (before & after & ->).
  exists before, after.
  destruct (NoDup_ids_split _ _ _ Hnodup) as [Hbefore Hafter].
  assert (delete_task task_id (before ++ row :: after) =
          (deleted task_id, before ++ after)) as Hdelete.
  { unfold delete_task, filter_by_id. rewrite filter_app.
    fold (filter_by_id task_id before).
    rewrite filter_by_id_absent by (by rewrite <- Hid).
    rewrite filter_cons. case_decide; [|done]. simpl.
    unfold flush_delete. rewrite filter_app, filter_cons.
    fold (flush_delete row before) (flush_delete row after).
    rewrite !flush_delete_absent by done. by case_decide. }
  assert (task_id ∉ ids (before ++ after)) as Hgone.
  { unfold ids. rewrite fmap_app. rewrite <- Hid. by apply not_elem_of_app. }
  assert (get_task task_id (before ++ after) = RetDict not_found) as Hget.
  { unfold get_task. by rewrite first_absent. }
  split_and!.
  - done.
  - exact Hdelete.
  - unfold Route.delete_task. by rewrite Hdelete.
  - unfold deleted. by rewrite lookup_insert_eq.
  - unfold deleted. by rewrite lookup_insert_ne, lookup_singleton_eq.
  - unfold deleted. rewrite dom_insert_L, dom_singleton_L. set_solver.
  - exact Hget.
  - unfold Route.get_task, serialize_response.
    by rewrite Hget, not_found_invalid.
Qed.

Lemma delete_task_removes_witness :
  ∃ before after,
    [buy_milk_row] = before ++ buy_milk_row :: after ∧
    delete_task 1 [buy_milk_row] = (deleted 1, before ++ after) ∧
    Route.get_task 1 (before ++ after) = internal_server_error.
Proof.
  assert (NoDup (ids [buy_milk_row])) as Hnodup.
  { apply NoDup_singleton. }
  assert (buy_milk_row ∈ [buy_milk_row]) as Hin.
  { by apply list_elem_of_singleton. }
  destruct (delete_task_removes 1 [buy_milk_row] buy_milk_row Hnodup Hin eq_refl)
    as (before & after & Hsplit & Hdelete & _ & _ & _ & _ & _ & Hroute).
  by exists before, after.
Defined.

(** ** POST /tasks: what validation does with the body *)

(** C9.  A body without the key [title] is rejected with a 422 whose
    errors name [title] as missing, and the table is the one the
    request found: the handler has not run. *)
Theorem create_without_title next_id now body (db : Session) :
  body !! "title"%string = None →
  Route.create_task next_id now body db =
    (mkResponse 422
       (ContentDetail
          (("title"%string, "missing"%string) ::
           field_error false "description" (body !! "description"%string))),
     db).
Proof.
  intros Htitle. unfold Route.create_task, validate_TaskCreate.
  rewrite Htitle. by destruct (body !! "description"%string) as [[]|].
Qed.

Lemma create_without_title_witness :
  (∅ : gmap string json) !! "title"%string = None ∧
  Route.create_task sqlite_rowid 1700 ∅ [buy_milk_row] =
    (mkResponse 422 (ContentDetail [("title"%string, "missing"%string)]),
     [buy_milk_row]).
Proof.
  split; [apply lookup_empty|].
  rewrite (create_without_title sqlite_rowid 1700 ∅ [buy_milk_row])
    by apply lookup_empty.
  reflexivity.
Defined.

(** C10.  A key of the body other than [title] and [description] does
    not count: with or without it, and whatever its value, the route
    returns the same response and the same table.  Whatever the body,
    the route either rejects it with a 422 and an unchanged table, or
    adds one row whose [completed] is false and answers 200 with a task
    whose [completed] is false. *)
Theorem create_ignores_other_keys next_id now (db : Session) :
  (∀ body key v, key ≠ "title"%string → key ≠ "description"%string →
     Route.create_task next_id now (<[key:=v]> body) db =
     Route.create_task next_id now body db) ∧
  (∀ body,
     (∃ errors,
        Route.create_task next_id now body db =
          (mkResponse 422 (ContentDetail errors), db)) ∨
     (∃ row task,
        Route.create_task next_id now body db =
          (mkResponse 200 (ContentTask task), db ++ [row]) ∧
        Task.completed row = Some false ∧
        TaskResponse.completed task = false)).
Proof.
  split.
  - intros body key v Htitle Hdescription.
    unfold Route.create_task, validate_TaskCreate.
    by rewrite !lookup_insert_ne.
  - intros body. unfold Route.create_task.
    destruct (validate_TaskCreate body) as [errors|task].
    + left. by eexists.
    + right. by do 2 eexists.
Qed.

Lemma create_ignores_other_keys_witness :
  Route.create_task sqlite_rowid 1700
    (<["completed"%string := JBool true]> buy_milk) [] =
  (mkResponse 200 (ContentTask buy_milk_response), [buy_milk_row]).
Proof.
  rewrite (proj1 (create_ignores_other_keys sqlite_rowid 1700 [])
             buy_milk "completed"%string (JBool true)) by done.
  apply buy_milk_created.
Defined.

(** ** The stored rows over a run of requests *)

Lemma ids_flush_update row' (db : Session) :
  ids (flush_update row' db) = ids db.
Proof.
  unfold ids, flush_update. rewrite <- list_fmap_compose.
  apply list_fmap_ext. intros _ r _. unfold compose. by case_decide.
Qed.

Lemma ids_flush_delete row (db : Session) :
  ids (flush_delete row db) `sublist_of` ids db.
Proof. unfold ids, flush_delete. apply fmap_sublist, sublist_filter. Qed.

Section Invariants.
Variable next_id : Session → Z.
Hypothesis next_id_fresh : ∀ db : Session, next_id db ∉ ids db.

Lemma reachable_induction (P : Session → Prop) :
  P [] →
  (∀ db r, reachable next_id db → P db → P (step next_id db r)) →
  ∀ db, reachable next_id db → P db.
Proof.
  intros Hnil Hstep db [rs <-].
  induction rs as [|r rs IH] using rev_ind; [done|].
  unfold run. rewrite foldl_snoc. apply Hstep; [by exists rs | exact IH].
Qed.

(** A request keeps the keys distinct. *)
Lemma step_NoDup (db : Session) r :
  NoDup (ids db) → NoDup (ids (step next_id db r)).
Proof.
  intros Hnodup. destruct r as [now task|task_id task|task_id]; simpl.
  - apply NoDup_ids_snoc; [apply next_id_fresh | done].
  - unfold update_task. destruct (first (filter_by_id task_id db)); [|done].
    simpl. by rewrite ids_flush_update.
  - unfold delete_task. destruct (first (filter_by_id task_id db)); [|done].
    simpl. eapply sublist_NoDup; [done | apply ids_flush_delete].
Qed.

(** X12.  [id] is unique among the stored rows: on every table a run
    of requests reaches, no two rows have the same key. *)
Lemma reachable_NoDup (db : Session) :
  reachable next_id db → NoDup (ids db).
Proof.
  revert db. apply (reachable_induction (λ db, NoDup (ids db))).
  - apply NoDup_nil_2.
  - intros db r _ Hnodup. by apply step_NoDup.
Qed.

(** X13.  A stored row whose key was already stored before the
    request has the [created_at] of the row that had this key: no
    request changes the key or the creation time of a row. *)
Lemma step_keeps_created_at (db : Session) r row' :
  row' ∈ step next_id db r → Task.id row' ∈ ids db →
  ∃ row, row ∈ db ∧ Task.id row = Task.id row' ∧
         Task.created_at row = Task.created_at row'.
Proof.
  destruct r as [now task|task_id task|task_id]; simpl.
  - intros [Hin| ->%list_elem_of_singleton]%elem_of_app Hid; [by exists row'|].
    by apply next_id_fresh in Hid.
  - unfold update_task.
    destruct (first (filter_by_id task_id db)) as [row|] eqn:Hrow;
      simpl; [|by exists row'].
    apply first_found in Hrow as [Hrow Hid].
    unfold flush_update. intros (r & -> & Hr)%list_elem_of_fmap _.
    case_decide as Hsame; [|by exists r].
    exists row. rewrite setattr_loop. simpl. by split.
  - unfold delete_task.
    destruct (first (filter_by_id task_id db)); simpl; [|by exists row'].
    unfold flush_delete. intros [_ Hin]%list_elem_of_filter _. by exists row'.
Qed.

(** X14.  [created_at] is set in every stored row of every table a
    run of requests reaches: no request stores a row without it or
    clears it. *)
Lemma reachable_created_at (db : Session) row :
  reachable next_id db → row ∈ db → is_Some (Task.created_at row).
Proof.
  intros Hreach. revert row. revert db Hreach.
  apply (reachable_induction
           (λ db, ∀ row, row ∈ db → is_Some (Task.created_at row))).
  { intros row Hin. by apply elem_of_nil in Hin. }
  intros db r _ IH row' Hin.
  destruct r as [now task|task_id task|task_id]; simpl in Hin.
  - apply elem_of_app in Hin as [Hin| ->%list_elem_of_singleton];
      [by apply IH | by eexists].
  - unfold update_task in Hin.
    destruct (first (filter_by_id task_id db)) as [row|] eqn:Hrow;
      simpl in Hin; [|by apply IH].
    apply first_found in Hrow as [Hrow _].
    unfold flush_update in Hin.
    apply list_elem_of_fmap in Hin as (r & -> & Hr).
    case_decide; [|by apply IH]. rewrite setattr_loop. simpl. by apply IH.
  - unfold delete_task in Hin.
    destruct (first (filter_by_id task_id db)); simpl in Hin; [|by apply IH].
    apply list_elem_of_filter in Hin as [_ Hin]. by apply IH.
Qed.

End Invariants.

(** C4.  Of the three invariants, two hold on every reachable table
    ([reachable_NoDup], [step_keeps_created_at]); the third does not.
    [TaskUpdate.title] is [Optional[str]], so a [PUT] whose body sets
    [title] to null passes validation, is in the set fields, and
    [setattr] writes it: after one creation and that [PUT], the stored
    row (same [id], same [created_at]) has no title, and reading it
    back ends in a 500, since [TaskResponse.title] is [str]. *)
Theorem put_null_title_clears_title :
  reachable sqlite_rowid (run sqlite_rowid milk_then_null) ∧
  run sqlite_rowid milk_then_null =
    [Task.mk 1 None None (Some false) (Some 1700)] ∧
  (∃ row, row ∈ run sqlite_rowid milk_then_null ∧ Task.title row = None) ∧
  Route.get_task 1 (run sqlite_rowid milk_then_null) = internal_server_error ∧
  Route.get_tasks None None (run sqlite_rowid milk_then_null) =
    internal_server_error.
Proof.
  split_and!; try reflexivity.
  - by exists milk_then_null.
  - eexists. split; [by left | done].
Qed.

(** * Further properties of the handlers *)

(** ** Lookup *)

Lemma first_None_absent task_id (db : Session) :
  first (filter_by_id task_id db) = None → task_id ∉ ids db.
Proof.
  induction db as [|row db IH]; [intros _; apply not_elem_of_nil|].
  rewrite filter_by_id_cons. case_decide; [done|].
  intros Hnone. unfold ids. rewrite fmap_cons.
  apply not_elem_of_cons. split; [congruence | by apply IH].
Qed.

Lemma get_task_stored task_id (db : Session) :
  task_id ∈ ids db →
  ∃ row, get_task task_id db = RetTask row ∧ row ∈ db ∧ Task.id row = task_id.
Proof.
  intros Hin. unfold get_task.
  destruct (first (filter_by_id task_id db)) as [row|] eqn:Hfirst.
  - apply first_found in Hfirst as [? ?]. by exists row.
  - by apply first_None_absent in Hfirst.
Qed.

(** X1.  [get_task] answers with the not-found dict exactly for the
    keys no stored row has; for a stored key it answers with a stored
    row that has this key. *)
Theorem get_task_not_found_iff task_id (db : Session) :
  (get_task task_id db = RetDict not_found ↔ task_id ∉ ids db) ∧
  (task_id ∈ ids db →
   ∃ row, get_task task_id db = RetTask row ∧ row ∈ db ∧
          Task.id row = task_id).
Proof.
  unfold get_task.
  destruct (first (filter_by_id task_id db)) as [row|] eqn:Hfirst.
  - apply first_found in Hfirst as [Hin Hid]. split.
    + split; [done|]. intros Habsent. destruct Habsent.
      rewrite <- Hid. unfold ids. by apply list_elem_of_fmap_2.
    + intros _. by exists row.
  - apply first_None_absent in Hfirst. split; [done|]. by intros ?.
Qed.

Lemma get_task_not_found_iff_witness :
  ∃ row, get_task 1 [buy_milk_row] = RetTask row ∧ Task.id row = 1.
Proof.
  assert (1 ∈ ids [buy_milk_row]) as Hin by (by left).
  destruct (proj2 (get_task_not_found_iff 1 [buy_milk_row]) Hin)
    as (row & Hget & _ & Hid).
  by exists row.
Defined.

(** ** Repeating a request *)

Lemma setattr_loop_twice task row :
  foldl setattr (foldl setattr row (dict_exclude_unset task))
    (dict_exclude_unset task) =
  foldl setattr row (dict_exclude_unset task).
Proof. rewrite !setattr_loop. by destruct task as [[?|] [?|] [?|]]. Qed.

Lemma flush_update_twice row' (db : Session) :
  flush_update row' (flush_update row' db) = flush_update row' db.
Proof.
  unfold flush_update. rewrite <- list_fmap_compose.
  apply list_fmap_ext. intros _ r _. unfold compose.
  by repeat case_decide.
Qed.

(** X2.  [update_task] is idempotent: the same request on the table it
    has just produced returns the same value and the same table. *)
Theorem update_task_idempotent task_id task (db : Session) :
  update_task task_id task (update_task task_id task db).2 =
  update_task task_id task db.
Proof.
  unfold update_task at 2 3.
  destruct (first (filter_by_id task_id db)) as [row|] eqn:Hfirst; simpl.
  - pose proof (first_found _ _ _ Hfirst) as [_ Hid].
    set (row' := foldl setattr row (dict_exclude_unset task)).
    assert (Task.id row' = task_id) as Hid'.
    { subst row'. by rewrite setattr_loop. }
    unfold update_task.
    rewrite (flush_update_first row' task_id db row Hid' Hfirst). cbv zeta.
    subst row'. by rewrite setattr_loop_twice, flush_update_twice.
  - unfold update_task. by rewrite Hfirst.
Qed.

Lemma ids_delete_task task_id (db : Session) :
  ids (delete_task task_id db).2 = filter (λ k, k ≠ task_id) (ids db).
Proof.
  assert (ids (filter (λ row, Task.id row ≠ task_id) db) =
          filter (λ k, k ≠ task_id) (ids db)) as Hfilter.
  { induction db as [|r db IH]; [done|].
    unfold ids in *. rewrite fmap_cons, !filter_cons.
    case_decide; [rewrite fmap_cons|]; by rewrite IH. }
  unfold delete_task.
  destruct (first (filter_by_id task_id db)) as [row|] eqn:Hfirst; simpl.
  - apply first_found in Hfirst as [_ <-]. apply Hfilter.
  - apply first_None_absent in Hfirst.
    rewrite <- Hfilter.
    change (filter (λ row, Task.id row ≠ task_id) db)
      with (flush_delete (Task.mk task_id None None None None) db).
    by rewrite flush_delete_absent.
Qed.

(** X3.  After [delete_task] no row has the key, whether or not one
    had it before and even in a table with repeated keys; so a second
    delete, a get and an update of the same key all answer with the
    not-found dict, and the second delete and the update leave the
    table as the first delete left it. *)
Theorem delete_task_then_absent task_id (db : Session) :
  (task_id ∉ ids (delete_task task_id db).2) ∧
  delete_task task_id (delete_task task_id db).2 =
    (not_found, (delete_task task_id db).2) ∧
  get_task task_id (delete_task task_id db).2 = RetDict not_found ∧
  ∀ task, update_task task_id task (delete_task task_id db).2 =
            (RetDict not_found, (delete_task task_id db).2).
Proof.
  assert (task_id ∉ ids (delete_task task_id db).2) as Hgone.
  { rewrite ids_delete_task. intros [? _]%list_elem_of_filter. done. }
  split; [done|].
  unfold delete_task at 1, get_task, update_task.
  by rewrite first_absent.
Qed.

(** ** What a write leaves alone *)

Lemma filter_by_id_flush_delete row other (db : Session) :
  other ≠ Task.id row →
  filter_by_id other (flush_delete row db) = filter_by_id other db.
Proof.
  intros Hne. induction db as [|r db IH]; [done|].
  unfold flush_delete. rewrite filter_cons. fold (flush_delete row db).
  rewrite filter_by_id_cons.
  repeat case_decide; rewrite ?filter_by_id_cons; repeat case_decide;
    congruence.
Qed.

(** X4.  A write to one key does not change what [get_task] answers
    for any other key: a creation for every key but the new row's, an
    update and a delete for every key but the one they were given. *)
Theorem write_keeps_other_keys (db : Session) :
  (∀ next_id now task other, other ≠ next_id db →
     get_task other (create_task next_id now task db).2 = get_task other db) ∧
  (∀ task_id task other, other ≠ task_id →
     get_task other (update_task task_id task db).2 = get_task other db) ∧
  (∀ task_id other, other ≠ task_id →
     get_task other (delete_task task_id db).2 = get_task other db).
Proof.
  split_and!.
  - intros next_id now task other Hne. unfold get_task, create_task. simpl.
    unfold filter_by_id. rewrite filter_app, filter_cons.
    case_decide; [done|]. by rewrite filter_nil, app_nil_r.
  - intros task_id task other Hne. unfold get_task, update_task.
    destruct (first (filter_by_id task_id db)) as [row|] eqn:Hfirst;
      simpl; [|done].
    apply first_found in Hfirst as [_ Hid].
    rewrite flush_update_other; [done|]. rewrite setattr_loop. simpl.
    congruence.
  - intros task_id other Hne. unfold get_task, delete_task.
    destruct (first (filter_by_id task_id db)) as [row|] eqn:Hfirst;
      simpl; [|done].
    apply first_found in Hfirst as [_ Hid].
    rewrite filter_by_id_flush_delete; [done | congruence].
Qed.

Lemma write_keeps_other_keys_witness :
  get_task 1 (delete_task 2 three_tasks).2 = get_task 1 three_tasks.
Proof.
  apply (proj2 (proj2 (write_keeps_other_keys three_tasks)) 2 1). lia.
Defined.

(** X5.  How the keys of the table change: a creation adds the new key
    at the end, an update changes no key and moves none, and a delete
    drops the given key and keeps the others in their order. *)
Theorem write_keys (db : Session) :
  (∀ next_id now task,
     ids (create_task next_id now task db).2 = ids db ++ [next_id db]) ∧
  (∀ task_id task, ids (update_task task_id task db).2 = ids db) ∧
  (∀ task_id,
     ids (delete_task task_id db).2 = filter (λ k, k ≠ task_id) (ids db)).
Proof.
  split_and!.
  - intros next_id now task. unfold create_task, ids. simpl.
    by rewrite fmap_app.
  - intros task_id task. unfold update_task.
    destruct (first (filter_by_id task_id db)); simpl; [|done].
    apply ids_flush_update.
  - intros task_id. apply ids_delete_task.
Qed.

(** ** Paging *)

(** X6.  Pages that follow one another join up: for [skip], [a] and
    [b] that are not negative, the page of [a] rows after [skip]
    followed by the page of [b] rows after [skip + a] is the page of
    [a + b] rows after [skip].  No row is repeated or left out between
    two pages. *)
Theorem get_tasks_pages_join (skip a b : Z) (db : Session) :
  0 ≤ skip → 0 ≤ a → 0 ≤ b →
  get_tasks skip a db ++ get_tasks (skip + a) b db = get_tasks skip (a + b) db.
Proof.
  intros Hskip Ha Hb. rewrite !get_tasks_take_drop by lia.
  rewrite !Z2Nat.inj_add by lia.
  rewrite <- drop_drop. apply take_take_drop.
Qed.

Lemma get_tasks_pages_join_witness :
  get_tasks 0 1 three_tasks ++ get_tasks 1 2 three_tasks =
  get_tasks 0 3 three_tasks.
Proof. apply (get_tasks_pages_join 0 1 2 three_tasks); lia. Defined.

(** X7.  The ends of the table: a [skip] at or past the number of rows
    gives the empty list, whatever [limit] is; a [limit] of 0 gives the
    empty list; and a [limit] that reaches the end of the table gives
    every row after the first [skip]. *)
Theorem get_tasks_ends (skip lim : Z) (db : Session) :
  (Z.of_nat (length db) ≤ skip → get_tasks skip lim db = []) ∧
  (lim = 0 → get_tasks skip lim db = []) ∧
  (0 ≤ skip → 0 ≤ lim → Z.of_nat (length db) ≤ skip + lim →
   get_tasks skip lim db = drop (Z.to_nat skip) db).
Proof.
  split_and!.
  - intros Hpast. unfold get_tasks, offset.
    rewrite drop_ge by lia. unfold limit. case_decide; [done|].
    apply take_nil.
  - intros ->. by rewrite get_tasks_take_drop.
  - intros Hskip Hlim Hend. rewrite get_tasks_take_drop by done.
    apply take_ge. rewrite length_drop. lia.
Qed.

Lemma get_tasks_ends_witness :
  get_tasks 3 10 three_tasks = [] ∧ get_tasks 1 0 three_tasks = [] ∧
  get_tasks 2 10 three_tasks = drop 2 three_tasks.
Proof.
  split_and!.
  - apply (proj1 (get_tasks_ends 3 10 three_tasks)). by vm_compute.
  - by apply (proj1 (proj2 (get_tasks_ends 1 0 three_tasks))).
  - apply (proj2 (proj2 (get_tasks_ends 2 10 three_tasks))); by vm_compute.
Defined.

(** ** Runs that set nothing to null *)

Lemma from_attributes_is_Some row :
  is_Some (from_attributes row) ↔
  is_Some (Task.title row) ∧ is_Some (Task.completed row) ∧
  is_Some (Task.created_at row).
Proof.
  unfold from_attributes.
  destruct (Task.title row), (Task.completed row), (Task.created_at row);
    simpl; split; intros H;
    try (by destruct H as [? [=]]);
    try (by destruct H as ([? [=]] & _));
    try (by destruct H as (_ & [? [=]] & _));
    try (by destruct H as (_ & _ & [? [=]]));
    by repeat split; eexists.
Qed.

Lemma from_attributes_id row task :
  from_attributes row = Some task → TaskResponse.id task = Task.id row.
Proof.
  unfold from_attributes.
  destruct (Task.title row), (Task.completed row), (Task.created_at row);
    simpl; by intros [= <-].
Qed.

Lemma step_keeps_valid next_id (db : Session) r :
  request_null_free r →
  Forall (is_Some ∘ from_attributes) db →
  Forall (is_Some ∘ from_attributes) (step next_id db r).
Proof.
  intros Hfree Hvalid.
  destruct r as [now task|task_id task|task_id]; simpl.
  - apply Forall_app. split; [done|]. apply Forall_singleton. by eexists.
  - unfold update_task.
    destruct (first (filter_by_id task_id db)) as [row|] eqn:Hfirst;
      simpl; [|done].
    apply first_found in Hfirst as [Hin _].
    assert (is_Some (from_attributes row)) as Hrow.
    { by apply (proj1 (Forall_forall _ _) Hvalid). }
    unfold flush_update. apply Forall_fmap.
    eapply Forall_impl; [exact Hvalid|]. intros r Hr. unfold compose.
    case_decide; [|exact Hr].
    rewrite setattr_loop. apply from_attributes_is_Some.
    apply from_attributes_is_Some in Hrow as (Htitle & Hcompleted & Hcreated).
    destruct Hfree as [Hfree_title Hfree_completed]. simpl.
    split_and!; [| |done].
    + destruct (TaskUpdate.title task) as [[?|]|]; by eauto.
    + destruct (TaskUpdate.completed task) as [[?|]|]; by eauto.
  - unfold delete_task.
    destruct (first (filter_by_id task_id db)); simpl; [|done].
    apply Forall_forall. intros r [_ Hr]%list_elem_of_filter.
    by apply (proj1 (Forall_forall _ _) Hvalid).
Qed.

Lemma run_keeps_valid next_id rs :
  Forall request_null_free rs →
  Forall (is_Some ∘ from_attributes) (run next_id rs).
Proof.
  induction rs as [|r rs IH] using rev_ind; [by constructor|].
  intros [Hrs Hr]%Forall_app. rewrite Forall_singleton in Hr.
  unfold run. rewrite foldl_snoc.
  apply step_keeps_valid; [exact Hr | by apply IH].
Qed.

(** X8.  As long as no [PUT] has given [title] or [completed] as null,
    every read answers 200: [GET /tasks] for every [skip] and [limit],
    with as many tasks as the handler returned rows, and
    [GET /tasks/{task_id}] for every stored key, with a task of that
    [id]. *)
Theorem null_free_run_reads next_id rs :
  Forall request_null_free rs →
  (∀ skip lim, ∃ tasks,
     Route.get_tasks skip lim (run next_id rs) =
       mkResponse 200 (ContentTasks tasks) ∧
     length tasks =
       length (get_tasks (default 0 skip) (default 10 lim) (run next_id rs))) ∧
  (∀ task_id, task_id ∈ ids (run next_id rs) →
     ∃ task,
       Route.get_task task_id (run next_id rs) =
         mkResponse 200 (ContentTask task) ∧
       TaskResponse.id task = task_id).
Proof.
  intros Hvalid%(run_keeps_valid next_id). split.
  - intros skip lim. unfold Route.get_tasks, serialize_list.
    set (page := get_tasks (default 0 skip) (default 10 lim) (run next_id rs)).
    assert (Forall (is_Some ∘ from_attributes) page) as Hpage.
    { subst page. unfold get_tasks, limit, offset.
      case_decide; [|apply Forall_take]; by apply Forall_drop. }
    apply mapM_is_Some_2 in Hpage as [tasks Htasks]. rewrite Htasks.
    exists tasks. split; [done|].
    apply mapM_Some_1 in Htasks. symmetry. by eapply Forall2_length.
  - intros task_id Hin.
    destruct (get_task_stored task_id (run next_id rs) Hin)
      as (row & Hget & Hrow & Hid).
    destruct (proj1 (Forall_forall _ _) Hvalid row Hrow) as [task Htask].
    exists task. unfold Route.get_task, serialize_response.
    rewrite Hget. simpl. rewrite Htask. split; [done|].
    apply from_attributes_id in Htask. congruence.
Qed.

Lemma ids_three_tasks : ids three_tasks = [1; 2; 3].
Proof. reflexivity. Qed.

Lemma null_free_run_reads_witness :
  ∃ task,
    Route.get_task 2 three_tasks = mkResponse 200 (ContentTask task) ∧
    TaskResponse.id task = 2.
Proof.
  refine (proj2 (null_free_run_reads sqlite_rowid _ _) 2 _).
  - repeat constructor.
  - fold three_tasks. rewrite ids_three_tasks. right. left.
Defined.

(** ** Composing requests *)

Lemma NoDup_ids_same_key (db : Session) r row :
  NoDup (ids db) → r ∈ db → row ∈ db → Task.id r = Task.id row → r = row.
Proof.
  induction db as [|x db IH]; [by intros _ ?%elem_of_nil|].
  unfold ids. rewrite fmap_cons.
  intros [Hfresh Hnodup]%NoDup_cons [->|Hr]%elem_of_cons [->|Hrow]%elem_of_cons
    Hid; [done| | |by apply IH].
  - destruct Hfresh. rewrite Hid. by apply list_elem_of_fmap_2.
  - destruct Hfresh. rewrite <- Hid. by apply list_elem_of_fmap_2.
Qed.

Lemma flush_update_self row (db : Session) :
  NoDup (ids db) → row ∈ db → flush_update row db = db.
Proof.
  intros Hnodup Hrow. unfold flush_update.
  rewrite <- (list_fmap_id db) at 2.
  apply list_fmap_ext. intros i r Hr. case_decide; [|done].
  symmetry. apply (NoDup_ids_same_key db); [done| |done|done].
  by eapply list_elem_of_lookup_2.
Qed.

(** X9.  With distinct keys in the table, a [PUT] whose body sets no
    field is a read: it returns what [get_task] returns for the key, the
    row or the not-found dict, and the table is unchanged. *)
Theorem update_task_empty task_id (db : Session) :
  NoDup (ids db) →
  update_task task_id empty_update db = (get_task task_id db, db).
Proof.
  intros Hnodup. unfold update_task, get_task.
  destruct (first (filter_by_id task_id db)) as [row|] eqn:Hfirst; [|done].
  apply first_found in Hfirst as [Hrow _]. simpl.
  by rewrite flush_update_self.
Qed.

Lemma update_task_empty_witness :
  update_task 2 empty_update three_tasks = (get_task 2 three_tasks, three_tasks).
Proof.
  apply update_task_empty. rewrite ids_three_tasks.
  by apply (bool_decide_unpack _).
Defined.

Lemma flush_update_comm row_a row_b (db : Session) :
  Task.id row_a ≠ Task.id row_b →
  flush_update row_a (flush_update row_b db) =
  flush_update row_b (flush_update row_a db).
Proof.
  intros Hne. unfold flush_update. rewrite <- !list_fmap_compose.
  apply list_fmap_ext. intros _ r _. unfold compose.
  repeat case_decide; congruence.
Qed.

Lemma first_after_update task_id task other (db : Session) :
  other ≠ task_id →
  first (filter_by_id other (update_task task_id task db).2) =
  first (filter_by_id other db).
Proof.
  intros Hne. unfold update_task.
  destruct (first (filter_by_id task_id db)) as [row|] eqn:Hfirst;
    simpl; [|done].
  apply first_found in Hfirst as [_ Hid].
  rewrite flush_update_other; [done|]. rewrite setattr_loop. simpl.
  congruence.
Qed.

(** X10.  Updates of two different keys do not interfere: each returns
    the same value whether it runs before or after the other, and the
    table after both is the same in either order. *)
Theorem update_task_commute a task_a b task_b (db : Session) :
  a ≠ b →
  (update_task b task_b (update_task a task_a db).2).1 =
    (update_task b task_b db).1 ∧
  (update_task b task_b (update_task a task_a db).2).2 =
    (update_task a task_a (update_task b task_b db).2).2.
Proof.
  intros Hne.
  pose proof (first_after_update a task_a b db (not_eq_sym Hne)) as Hb.
  pose proof (first_after_update b task_b a db Hne) as Ha.
  unfold update_task at 1 3 4 6. rewrite Ha, Hb. clear Ha Hb.
  unfold update_task.
  destruct (first (filter_by_id a db)) as [row_a|] eqn:Hfirst_a,
    (first (filter_by_id b db)) as [row_b|] eqn:Hfirst_b; simpl;
    try done.
  split; [done|].
  apply first_found in Hfirst_a as [_ Hid_a].
  apply first_found in Hfirst_b as [_ Hid_b].
  symmetry. apply flush_update_comm. rewrite !setattr_loop. simpl.
  congruence.
Qed.

Lemma update_task_commute_witness :
  (update_task 2 null_title (update_task 1 set_completed three_tasks).2).2 =
  (update_task 1 set_completed (update_task 2 null_title three_tasks).2).2.
Proof. apply (update_task_commute 1 set_completed 2 null_title three_tasks). lia. Defined.

Section Undo.
Variable next_id : Session → Z.
Hypothesis next_id_fresh : ∀ db : Session, next_id db ∉ ids db.

(** X11.  Deleting a task by the [id] its creation returned undoes the
    creation: the delete answers with the dict of [message] and [id],
    and the table is the one the creation found. *)
Theorem create_then_delete now task (db : Session) :
  delete_task (Task.id (create_task next_id now task db).1)
    (create_task next_id now task db).2 =
  (deleted (next_id db), db).
Proof.
  unfold create_task. simpl.
  unfold delete_task, filter_by_id. rewrite filter_app.
  fold (filter_by_id (next_id db) db).
  rewrite filter_by_id_absent by apply next_id_fresh.
  rewrite filter_cons. case_decide; [|done]. simpl.
  unfold flush_delete. rewrite filter_app, filter_cons. simpl.
  case_decide; [done|]. rewrite filter_nil, app_nil_r.
  match goal with |- (_, filter _ db) = _ =>
    change (filter _ db)
      with (flush_delete (Task.mk (next_id db) None None None None) db) end.
  rewrite flush_delete_absent; [done | apply next_id_fresh].
Qed.

End Undo.

Lemma create_then_delete_witness :
  delete_task 4 (create_task sqlite_rowid 1703 (TaskCreate.mk "Call" None)
                   three_tasks).2 =
  (deleted 4, three_tasks).
Proof.
  apply (create_then_delete sqlite_rowid sqlite_rowid_fresh 1703
           (TaskCreate.mk "Call" None) three_tasks).
Defined.

(** ** Witnesses for the properties of runs *)

Lemma reachable_three_tasks : reachable sqlite_rowid three_tasks.
Proof. by eexists. Qed.

Lemma reachable_NoDup_witness : NoDup (ids three_tasks).
Proof.
  exact (reachable_NoDup sqlite_rowid sqlite_rowid_fresh three_tasks
           reachable_three_tasks).
Defined.

Lemma step_keeps_created_at_witness :
  ∃ row, row ∈ [buy_milk_row] ∧ Task.id row = 1 ∧
         Task.created_at row = Some 1700.
Proof.
  refine (step_keeps_created_at sqlite_rowid sqlite_rowid_fresh [buy_milk_row]
            (Put 1 null_title) (Task.mk 1 None None (Some false) (Some 1700))
            _ _); by left.
Defined.

Lemma reachable_created_at_witness :
  is_Some (Task.created_at (Task.mk 2 (Some "Walk the dog"%string)
                              (Some "twice"%string) (Some false) (Some 1701))).
Proof.
  refine (reachable_created_at sqlite_rowid three_tasks _
            reachable_three_tasks _).
  right. left.
Defined.

(** ** PUT /tasks/{task_id} on a row that validates *)

(** X15.  On a stored row that validates as a task, a [PUT] that gives
    neither [title] nor [completed] as null answers 200 with the task in
    which each field the body gives has the body's value and each field
    it leaves out has the value it had; [id] and [created_at] are those
    of the row.  A [GET] of the key on the resulting table answers with
    the same task. *)
Theorem put_answers_updated_task task_id task (db : Session) row r :
  first (filter_by_id task_id db) = Some row →
  from_attributes row = Some r →
  null_free task →
  let updated :=
    TaskResponse.mk task_id
      (from_option (default (TaskResponse.title r)) (TaskResponse.title r)
         (TaskUpdate.title task))
      (default (TaskResponse.description r) (TaskUpdate.description task))
      (from_option (default (TaskResponse.completed r))
         (TaskResponse.completed r) (TaskUpdate.completed task))
      (TaskResponse.created_at r) in
  ∃ db',
    Route.update_task task_id task db =
      (mkResponse 200 (ContentTask updated), db') ∧
    Route.get_task task_id db' = mkResponse 200 (ContentTask updated).
Proof.
  intros Hfirst Hvalid [Hfree_title Hfree_completed] updated.
  pose proof (first_found _ _ _ Hfirst) as [_ Hid].
  set (row' := foldl setattr row (dict_exclude_unset task)).
  assert (Task.id row' = task_id) as Hid'.
  { subst row'. by rewrite setattr_loop. }
  assert (from_attributes row' = Some updated) as Hvalid'.
  { subst row' updated. rewrite setattr_loop. unfold from_attributes in *.
    destruct row as [id [title|] description [completed|] [created_at|]];
      simplify_eq/=.
    destruct task as [[[?|]|] [?|] [[?|]|]]; simplify_eq/=; done. }
  exists (flush_update row' db).
  unfold Route.update_task, update_task, Route.get_task, get_task.
  rewrite Hfirst. cbv zeta. fold row'.
  rewrite (flush_update_first row' task_id db row Hid' Hfirst).
  unfold serialize_response. simpl. by rewrite Hvalid'.
Qed.

Lemma put_answers_updated_task_witness :
  ∃ db',
    Route.update_task 1 set_completed [buy_milk_row] =
      (mkResponse 200
         (ContentTask (TaskResponse.mk 1 "Buy milk" None true 1700)), db').
Proof.
  destruct (put_answers_updated_task 1 set_completed [buy_milk_row]
              buy_milk_row buy_milk_response eq_refl eq_refl)
    as (db' & Hput & _).
  - split; discriminate.
  - by exists db'.
Defined.

(** ** Database configuration *)

Lemma startswith_spec needle hay :
  startswith needle hay = true ↔ ∃ post, hay = needle +:+ post.
Proof.
  revert hay. induction needle as [|a needle IH]; intros hay; simpl.
  - split; [by exists hay | done].
  - destruct hay as [|b hay].
    + split; [done | by intros [post [=]]].
    + destruct (Ascii.eqb_spec a b) as [->|Hne].
      * rewrite IH. split; intros [post Hpost]; exists post.
        -- change (String b hay = String b (needle +:+ post)). by f_equal.
        -- change (String b hay = String b (needle +:+ post)) in Hpost.
           by injection Hpost.
      * split; [done | intros [post [=]]; congruence].
Qed.

Lemma contains_spec needle hay :
  contains needle hay = true ↔ ∃ pre post, hay = pre +:+ needle +:+ post.
Proof.
  split.
  - induction hay as [|c hay IH]; simpl.
    + rewrite orb_false_r. intros [post Hpost]%startswith_spec.
      by exists EmptyString, post.
    + intros [[post Hpost]%startswith_spec|Hlater]%orb_true_iff.
      * by exists EmptyString, post.
      * destruct (IH Hlater) as (pre & post & ->).
        by exists (String c pre), post.
  - intros (pre & post & ->).
    induction pre as [|c pre IH]; simpl.
    + destruct (needle +:+ post) eqn:Happ; simpl;
        rewrite <- Happ; apply orb_true_iff; left;
        apply startswith_spec; by exists post.
    + apply orb_true_iff. by right.
Qed.

(** X16.  The engine gets [{"check_same_thread": False}] exactly when
    the URL has the letters [sqlite] somewhere in it, whatever stands
    before and after them, and gets no connect arguments otherwise; in
    particular it gets them when [DATABASE_URL] is not set. *)
Theorem connect_args_sqlite :
  (∀ url,
     connect_args url = {[ "check_same_thread"%string := JBool false ]} ↔
     ∃ pre post, url = pre +:+ "sqlite" +:+ post) ∧
  (∀ url,
     connect_args url = ∅ ↔ ¬ ∃ pre post, url = pre +:+ "sqlite" +:+ post) ∧
  (∀ environ : gmap string string,
     environ !! "DATABASE_URL"%string = None →
     connect_args (DATABASE_URL environ) =
       {[ "check_same_thread"%string := JBool false ]}).
Proof.
  split_and!.
  - intros url. rewrite <- contains_spec. unfold connect_args.
    destruct (contains "sqlite" url); split; try done.
    all: intros Hempty; symmetry in Hempty;
      by apply map_non_empty_singleton in Hempty.
  - intros url. rewrite <- contains_spec. unfold connect_args.
    destruct (contains "sqlite" url); split; try done.
    all: first [ intros Hsingleton;
                 by apply map_non_empty_singleton in Hsingleton
               | intros Hnot; by destruct Hnot ].
  - intros environ Hunset. unfold DATABASE_URL. by rewrite Hunset.
Qed.

Lemma connect_args_sqlite_witness :
  connect_args "postgresql://db/sqlite_archive" =
    {[ "check_same_thread"%string := JBool false ]} ∧
  connect_args (DATABASE_URL ∅) =
    {[ "check_same_thread"%string := JBool false ]}.
Proof.
  split.
  - apply (proj1 connect_args_sqlite).
    by exists "postgresql://db/"%string, "_archive"%string.
  - by apply (proj2 (proj2 connect_args_sqlite)).
Defined.

(** ** PUT /tasks/{task_id} that gives a required field as null *)

(** X17.  On a stored key, a [PUT] that gives [title] or [completed] as
    null answers 500, yet it has written: the row stored under the key
    afterwards has lost that field, and a [GET] of the key answers 500
    as well.  A 500 from [PUT] does not mean the table is untouched. *)
Theorem put_null_writes_and_fails task_id task (db : Session) row :
  first (filter_by_id task_id db) = Some row →
  TaskUpdate.title task = Some None ∨ TaskUpdate.completed task = Some None →
  ∃ row' db',
    Route.update_task task_id task db = (internal_server_error, db') ∧
    get_task task_id db' = RetTask row' ∧
    (Task.title row' = None ∨ Task.completed row' = None) ∧
    Route.get_task task_id db' = internal_server_error.
Proof.
  intros Hfirst Hnull.
  pose proof (first_found _ _ _ Hfirst) as [_ Hid].
  set (row' := foldl setattr row (dict_exclude_unset task)).
  assert (Task.id row' = task_id) as Hid'.
  { subst row'. by rewrite setattr_loop. }
  assert (Task.title row' = None ∨ Task.completed row' = None) as Hlost.
  { subst row'. rewrite setattr_loop. simpl.
    destruct Hnull as [-> | ->]; [by left | by right]. }
  assert (from_attributes row' = None) as Hinvalid.
  { unfold from_attributes. destruct Hlost as [-> | ->]; [done|].
    by destruct (Task.title row'). }
  exists row', (flush_update row' db).
  unfold Route.update_task, update_task, Route.get_task, get_task.
  rewrite Hfirst. cbv zeta. fold row'.
  rewrite (flush_update_first row' task_id db row Hid' Hfirst).
  unfold serialize_response. simpl. by rewrite Hinvalid.
Qed.

Lemma put_null_writes_and_fails_witness :
  ∃ row' db',
    Route.update_task 1 null_title [buy_milk_row] = (internal_server_error, db') ∧
    get_task 1 db' = RetTask row' ∧
    (Task.title row' = None ∨ Task.completed row' = None).
Proof.
  destruct (put_null_writes_and_fails 1 null_title [buy_milk_row] buy_milk_row
              eq_refl (or_introl eq_refl))
    as (row' & db' & Hput & Hget & Hlost & _).
  by exists row', db'.
Defined.
